(** * Media Credibility Hub: the scoring routines and the page script of app.py

    A shallow embedding of [src/app.py].  Python floats are binary64 values,
    modelled by Rocq's primitive floats; the module-level generator behind
    [random.random()] and the list of Streamlit elements the script renders
    are threaded explicitly through a small state monad, and the exceptions
    that end the script through a result type. *)

From Stdlib Require Import ZArith List String Ascii Bool Lia QArith Lqa.
From Stdlib Require Import Floats Uint63 Permutation.
Import ListNotations.

Set Warnings "-inexact-float".
Local Open Scope Z_scope.

(** ** State passing *)

Module StateM.

Definition State (S A : Type) : Type := S -> A * S.

Definition ret {S A : Type} (a : A) : State S A := fun s => (a, s).

Definition bind {S A B : Type} (m : State S A) (k : A -> State S B)
  : State S B :=
  fun s => let (a, s') := m s in k a s'.

Definition modify {S : Type} (f : S -> S) : State S unit :=
  fun s => (tt, f s).

Definition eval {S A : Type} (m : State S A) (s : S) : A := fst (m s).

Definition exec {S A : Type} (m : State S A) (s : S) : S := snd (m s).

End StateM.
Import StateM.

Declare Scope state_scope.
Delimit Scope state_scope with state.
Notation "x <- m ;; k" := (bind m (fun x => k))
  (at level 61, m at next level, right associativity) : state_scope.
Notation "' pat <- m ;; k" := (bind m (fun x => match x with pat => k end))
  (at level 61, pat pattern, m at next level, right associativity)
  : state_scope.
Notation "m ;; k" := (bind m (fun _ => k))
  (at level 61, right associativity) : state_scope.

(** ** Binary64 values *)

Module F64.

(** Conversion of an integer (below 2^63 in magnitude) to the nearest
    binary64 value, as NumPy does when it accumulates integer samples in a
    float64. *)
Definition of_Z (z : Z) : float :=
  match z with
  | Z0 => PrimFloat.zero
  | Zpos _ => PrimFloat.of_uint63 (Uint63.of_Z z)
  | Zneg p => PrimFloat.opp (PrimFloat.of_uint63 (Uint63.of_Z (Zpos p)))
  end.

(** Python's [a > b] on floats. *)
Definition gt (a b : float) : bool := (b <? a)%float.

(** Python's [a >= b] on floats. *)
Definition ge (a b : float) : bool := (b <=? a)%float.

(** [0 <= s <= 1]. *)
Definition in_unit (s : float) : bool :=
  ((0 <=? s) && (s <=? 1))%float.

(** The rational a finite binary64 value stands for ([None] for the
    infinities and NaN). *)
Definition SF2Q (x : spec_float) : option Q :=
  match x with
  | S754_zero _ => Some 0%Q
  | S754_finite s m e =>
      let mag := match e with
                 | Z0 => inject_Z (Zpos m)
                 | Zpos p => inject_Z (Zpos m * Z.pow_pos 2 p)
                 | Zneg p => Qmake (Zpos m) (Pos.pow 2 p)
                 end in
      Some (if s then Qopp mag else mag)
  | _ => None
  end.

Definition to_Q (x : float) : option Q := SF2Q (Prim2SF x).

Definition SFnan (x : spec_float) : bool :=
  match x with S754_nan => true | _ => false end.

End F64.

(** ** random: the module-level generator

    [random.random()] returns the next output of a hidden, seeded generator
    and advances it.  Whatever the generator, a seeded run is the sequence of
    its outputs together with how many were consumed. *)

Module Random.

Record generator : Type := {
  outputs : nat -> float;
  position : nat
}.

Definition random : State generator float :=
  fun g => (outputs g (position g),
            {| outputs := outputs g; position := S (position g) |}).

End Random.

(** ** PIL images and NumPy arrays *)

Module PIL.

(** A decoded image: its size and, pixel after pixel in row-major order,
    the samples of each band. *)
Record Image : Type := {
  size : nat * nat;
  pixels : list (list Z)
}.

End PIL.

Module np.

(** The samples of an array in C order.  [mean()] without an axis reduces
    over all of them, so the shape plays no part. *)
Definition ndarray : Type := list Z.

(** [np.array(image)] *)
Definition array (image : PIL.Image) : ndarray := List.concat (PIL.pixels image).

Definition sum (a : ndarray) : Z := fold_left Z.add a 0.

(** [a.mean()]: the float64 sum of the samples (exact below 2^53, which
    bounds the sample sum of any image Pillow opens) divided by their
    number; NaN on an empty array. *)
Definition mean (a : ndarray) : float :=
  (F64.of_Z (sum a) / F64.of_Z (Z.of_nat (List.length a)))%float.

End np.

(** ** The two scoring routines *)

Definition verdict : Type := string * float.

(** [analyze_image], app.py lines 8 to 26. *)
Definition analyze_image (image : PIL.Image) : State Random.generator verdict :=
  let img_array := np.array image in
  if F64.gt (np.mean img_array) 128
  then ret ("Likely AI-Generated"%string, 0.2%float)
  else (r <- Random.random ;;
        if F64.gt r 0.5
        then ret ("Likely Authentic"%string, 0.9%float)
        else ret ("Analysis Inconclusive"%string, 0.6%float))%state.

(** [str.lower] on ASCII text. *)
Definition lower_ascii (c : ascii) : ascii :=
  let n := nat_of_ascii c in
  if ((65 <=? n) && (n <=? 90))%nat then ascii_of_nat (n + 32) else c.

Fixpoint lower (s : string) : string :=
  match s with
  | EmptyString => EmptyString
  | String c s' => String (lower_ascii c) (lower s')
  end.

(** [word in s]: [word] occurs in [s] as a substring. *)
Fixpoint str_in (word s : string) : bool :=
  match s with
  | EmptyString => String.prefix word EmptyString
  | String _ s' => String.prefix word s || str_in word s'
  end.

(** [any(p(x) for x in xs)] *)
Definition any {A : Type} (p : A -> bool) (xs : list A) : bool :=
  existsb p xs.

Definition clickbait_words : list string :=
  ["shocking"; "secret"; "unbelievable"; "revealed"; "what happens next"]%string.

Definition placeholder_title : string :=
  "Shocking Secret of AI Revealed by Scientists!"%string.

(** [analyze_headline], app.py lines 29 to 43. *)
Definition analyze_headline (url : string) : verdict :=
  if any (fun word => str_in word (lower placeholder_title)) clickbait_words
  then ("High Sensationalism Detected"%string, 0.3%float)
  else ("Low Sensationalism"%string, 0.8%float).

(** ** Streamlit: what the script renders

    An element is one [st.*] call.  The formatted banner texts are kept as
    data: an f-string's fields are the constructor's arguments, and
    [{score:.2f}] keeps the score it prints. *)

Module st.

Inductive container : Type := Page | Col1 | Col2.

Inductive level : Type := LOW | MEDIUM | HIGH.

Inductive message : Type :=
| Text (s : string)
| Result (result : string) (score : float)
| Overall (l : level) (final_score : float)
| Breakdown (img_result headline_result : string).

Inductive element : Type :=
| set_page_config (page_title : string)
| markdown (body : string)
| columns (n : nat)
| header (body : string)
| subheader (body : string)
| file_uploader (label : string)
| text_input (label : string)
| image (caption : string)
| write (m : message)
| spinner (text : string)
| info (body : string)
| error (m : message)
| warning (m : message)
| success (m : message).

(** The coloured result banners: red, yellow and green. *)
Definition is_error (e : element) : bool :=
  match e with error _ => true | _ => false end.

Definition is_warning (e : element) : bool :=
  match e with warning _ => true | _ => false end.

Definition is_success (e : element) : bool :=
  match e with success _ => true | _ => false end.

Definition is_banner (e : element) : bool :=
  is_error e || is_warning e || is_success e.

(** The score an element prints, if any. *)
Definition score_of (e : element) : option float :=
  match e with
  | write m | error m | warning m | success m =>
      match m with
      | Result _ score => Some score
      | Overall _ final_score => Some final_score
      | _ => None
      end
  | _ => None
  end.

End st.

(** ** One run of the script *)

Inductive routine : Type := AnalyzeImage | AnalyzeHeadline.

(** The generator, the elements rendered so far with the container each
    went to, and the scoring routines called so far. *)
Record session : Type := {
  rng : Random.generator;
  rendered : list (st.container * st.element);
  calls : list routine
}.

Definition fresh (g : Random.generator) : session :=
  {| rng := g; rendered := []; calls := [] |}.

Definition emit (c : st.container) (e : st.element) : State session unit :=
  modify (fun s => {| rng := rng s;
                      rendered := rendered s ++ [(c, e)];
                      calls := calls s |}).

(** A call of a scoring routine: the routine runs on the session's
    generator, and the same step enters it in the list of calls. *)
Definition call {A : Type} (r : routine) (m : State Random.generator A)
  : State session A :=
  fun s => let (a, g') := m (rng s) in
           (a, {| rng := g'; rendered := rendered s; calls := calls s ++ [r] |}).

(** Python's truth value of a [str]. *)
Definition truthy (s : string) : bool :=
  match s with
  | EmptyString => false
  | String _ _ => true
  end.

(** ** Exceptions

    The script has no [try]: an exception ends it where it is raised, with
    what was rendered before left on the page. *)

Inductive exn : Type :=
| SyntaxError (line : nat)
| UnidentifiedImageError.

Module ScriptM.

Inductive result (A : Type) : Type :=
| Ok (a : A)
| Raised (e : exn).

Arguments Ok {A} a.
Arguments Raised {A} e.

Definition Script (A : Type) : Type := session -> result A * session.

Definition done {A : Type} (a : A) : Script A := fun s => (Ok a, s).

Definition raise {A : Type} (e : exn) : Script A := fun s => (Raised e, s).

Definition andthen {A B : Type} (m : Script A) (k : A -> Script B)
  : Script B :=
  fun s => match m s with
           | (Ok a, s') => k a s'
           | (Raised e, s') => (Raised e, s')
           end.

(** A step that cannot raise. *)
Definition lift {A : Type} (m : State session A) : Script A :=
  fun s => let (a, s') := m s in (Ok a, s').

End ScriptM.
Import ScriptM.

Declare Scope script_scope.
Delimit Scope script_scope with script.
Notation "x <- m ;; k" := (andthen m (fun x => k))
  (at level 61, m at next level, right associativity) : script_scope.
Notation "' pat <- m ;; k" := (andthen m (fun x => match x with pat => k end))
  (at level 61, pat pattern, m at next level, right associativity)
  : script_scope.
Notation "m ;; k" := (andthen m (fun _ => k))
  (at level 61, right associativity) : script_scope.

(** An uploaded file: its name and what [Image.open] makes of its bytes, an
    image, or [None] when it raises [UnidentifiedImageError].  The uploader
    of line 87 filters by the extension of the name only, so a file that is
    no image can be uploaded. *)
Record UploadedFile : Type := {
  name : string;
  opens_as : option PIL.Image
}.

(** [Image.open(uploaded_file)], line 90. *)
Definition Image_open (f : UploadedFile) : Script PIL.Image :=
  match opens_as f with
  | Some image => done image
  | None => raise UnidentifiedImageError
  end.

(** What the two widgets return: the uploaded file or [None], and the text
    of the URL field. *)
Record inputs : Type := {
  uploaded_file : option UploadedFile;
  url_input : string
}.

(** Lines 96 to 101: the banner of the image column. *)
Definition result_banner (result : string) (score : float) : st.element :=
  if (score <? 0.5)%float then st.error (st.Result result score)
  else if (score <? 0.7)%float then st.warning (st.Result result score)
  else st.success (st.Result result score).

(** Lines 129 to 134: the banner of the URL column. *)
Definition overall_banner (final_score : float) : st.element :=
  if (final_score <? 0.5)%float then st.error (st.Overall st.LOW final_score)
  else if (final_score <? 0.7)%float
       then st.warning (st.Overall st.MEDIUM final_score)
       else st.success (st.Overall st.HIGH final_score).

(** Line 124. *)
Definition final_score (img_score headline_score : float) : float :=
  ((img_score + headline_score) / 2)%float.

Local Open Scope string_scope.

(** Lines 84 to 101.  [Image.open] on line 90 is not guarded: when it raises,
    the column ends there, before the image is shown and before
    [analyze_image] is called. *)
Definition image_column (uploaded_file : option UploadedFile)
  : Script unit :=
  (lift (emit st.Col1 (st.header "1. Analyze an Image")) ;;
   lift (emit st.Col1
           (st.markdown
              "Upload a photo to check if it's authentic or AI-generated.")) ;;
   lift (emit st.Col1 (st.file_uploader "Choose an image...")) ;;
   match uploaded_file with
   | Some f =>
       image <- Image_open f ;;
       lift (emit st.Col1 (st.image "Uploaded Image")) ;;
       lift (emit st.Col1 (st.write (st.Text ""))) ;;
       lift (emit st.Col1 (st.spinner "Analyzing image forensics...")) ;;
       ' (result, score) <- lift (call AnalyzeImage (analyze_image image)) ;;
       lift (emit st.Col1 (result_banner result score))
   | None => done tt
   end)%script.

(** Lines 105 to 134: the URL column up to its banner.  Nothing in it can
    raise. *)
Definition url_column (url_input : string) : State session unit :=
  (emit st.Col2 (st.header "2. Analyze a News URL") ;;
   emit st.Col2
     (st.markdown
        "Paste a link to a news article to check its headline for sensationalism.") ;;
   emit st.Col2 (st.text_input "Enter URL here...") ;;
   if truthy url_input then
     emit st.Col2
       (st.info "URL analysis in this demo uses a placeholder image and title.") ;;
     emit st.Col2 (st.image "Image from URL (Placeholder)") ;;
     emit st.Col2 (st.write (st.Text "")) ;;
     emit st.Col2 (st.spinner "Analyzing URL content...") ;;
     let '(img_result, img_score) := ("Likely Authentic", 0.9%float) in
     ' (headline_result, headline_score) <-
       call AnalyzeHeadline (ret (analyze_headline url_input)) ;;
     let final := final_score img_score headline_score in
     emit st.Col2 (st.write (st.Text "---")) ;;
     emit st.Col2 (st.subheader "Combined Analysis:") ;;
     emit st.Col2 (overall_banner final)
   else ret tt)%state.

(** The statements of lines 48 to 134, in order.  The style sheet and title
    block of lines 51 to 77 is one [st.markdown], kept by its heading; the
    two columns of line 81 are the containers [Col1] and [Col2]. *)
Definition page (inp : inputs) : Script unit :=
  (lift (emit st.Page (st.set_page_config "Media Credibility Hub")) ;;
   lift (emit st.Page (st.markdown "Media Credibility Hub")) ;;
   lift (emit st.Page (st.columns 2)) ;;
   image_column (uploaded_file inp) ;;
   lift (url_column (url_input inp)))%script.

(** The session lines 48 to 134 leave behind, and how they end. *)
Definition render (inp : inputs) (g : Random.generator) : session :=
  snd (page inp (fresh g)).

Definition outcome (inp : inputs) (g : Random.generator) : result unit :=
  fst (page inp (fresh g)).

(** ** The last statement, lines 136 to 139

    The file ends with [st.write(f] followed by a double quote, a line end,
    two lines of text and, on a line of its own, a double quote and the
    closing parenthesis: a single-quoted f-string with raw line ends in it. *)

Definition dquote : ascii := "034"%char.
Definition newline : ascii := "010"%char.
Definition backslash : ascii := "092"%char.

(** The text of the file from just after the quote that opens the literal
    on line 136 to the end of line 139. *)
Definition after_opening_quote : string :=
  String newline
    ("- **Image:** {img_result}" ++
     String newline
       ("- **Headline:** {headline_result}" ++
        String newline (String dquote ")"))).

(** The same statement written with [\n] escapes, for comparison. *)
Definition after_opening_quote_escaped : string :=
  String backslash
    ("n- **Image:** {img_result}" ++
     String backslash
       ("n- **Headline:** {headline_result}" ++
        String backslash (String "n" (String dquote ")")))).

(** Python's tokenizer on the body of a single-quoted string literal.  The
    literal ends at the next quote; a backslash takes the next character
    with it; a line end before the closing quote leaves the literal
    unterminated, except (since Python 3.12, in an f-string) inside the
    braces of a replacement field. *)
Fixpoint literal_closes (escaped : bool) (depth : nat) (s : string) : bool :=
  match s with
  | EmptyString => false
  | String c rest =>
      if escaped then literal_closes false depth rest
      else if Ascii.eqb c backslash then literal_closes true depth rest
      else if Ascii.eqb c newline then
        match depth with
        | O => false
        | S _ => literal_closes false depth rest
        end
      else if Ascii.eqb c dquote then
        match depth with
        | O => true
        | S _ => literal_closes false depth rest
        end
      else if Ascii.eqb c "{" then literal_closes false (S depth) rest
      else if Ascii.eqb c "}" then literal_closes false (Nat.pred depth) rest
      else literal_closes false depth rest
  end.

(** Lines 136 to 139 as the statement they would be with the literal
    closed: still inside [if url_input:], one more [st.write]. *)
Definition closing_write (url_input : string) : State session unit :=
  if truthy url_input
  then emit st.Col2
         (st.write
            (st.Breakdown "Likely Authentic"
                          (fst (analyze_headline url_input))))
  else ret tt.

(** The file as Python loads it.  A module is compiled as a whole before its
    first statement runs, so an unterminated literal ends the run with
    [SyntaxError] and nothing executed. *)
Definition app_py (inp : inputs) : Script unit :=
  if literal_closes false 0 after_opening_quote
  then (page inp ;; lift (closing_write (url_input inp)))%script
  else raise (SyntaxError 136).

(** Streamlit runs the script from its first line at every interaction. *)
Definition run (inp : inputs) (g : Random.generator) : session :=
  snd (app_py inp (fresh g)).

Close Scope string_scope.

(** ** The elements of lines 48 to 134, column by column *)

Section Elements.

Local Open Scope string_scope.

Definition page_head : list (st.container * st.element) :=
  [ (st.Page, st.set_page_config "Media Credibility Hub");
    (st.Page, st.markdown "Media Credibility Hub");
    (st.Page, st.columns 2) ].

Definition col1_head : list (st.container * st.element) :=
  [ (st.Col1, st.header "1. Analyze an Image");
    (st.Col1,
      st.markdown "Upload a photo to check if it's authentic or AI-generated.");
    (st.Col1, st.file_uploader "Choose an image...") ].

Definition col1_body (v : verdict) : list (st.container * st.element) :=
  [ (st.Col1, st.image "Uploaded Image");
    (st.Col1, st.write (st.Text ""));
    (st.Col1, st.spinner "Analyzing image forensics...");
    (st.Col1, result_banner (fst v) (snd v)) ].

Definition col2_head : list (st.container * st.element) :=
  [ (st.Col2, st.header "2. Analyze a News URL");
    (st.Col2,
      st.markdown
        "Paste a link to a news article to check its headline for sensationalism.");
    (st.Col2, st.text_input "Enter URL here...") ].

Definition col2_body (v : verdict) : list (st.container * st.element) :=
  [ (st.Col2,
      st.info "URL analysis in this demo uses a placeholder image and title.");
    (st.Col2, st.image "Image from URL (Placeholder)");
    (st.Col2, st.write (st.Text ""));
    (st.Col2, st.spinner "Analyzing URL content...");
    (st.Col2, st.write (st.Text "---"));
    (st.Col2, st.subheader "Combined Analysis:");
    (st.Col2, overall_banner (final_score 0.9 (snd v))) ].

End Elements.

(** No upload, or one that [Image.open] accepts. *)
Definition decodes (up : option UploadedFile) : bool :=
  match up with
  | Some f => match opens_as f with Some _ => true | None => false end
  | None => true
  end.

(** The image that reaches [analyze_image], if any. *)
Definition opened (up : option UploadedFile) : option PIL.Image :=
  match up with
  | Some f => opens_as f
  | None => None
  end.

(** ** The verdicts of analyze_image *)

Definition likely_ai : verdict := ("Likely AI-Generated"%string, 0.2%float).
Definition likely_authentic : verdict := ("Likely Authentic"%string, 0.9%float).
Definition inconclusive : verdict := ("Analysis Inconclusive"%string, 0.6%float).

(** ** Sample inputs *)

(** A white strip, a dark strip, a one-sample image at the threshold, and
    an image without pixels. *)
Definition white_strip : PIL.Image :=
  {| PIL.size := (2, 1)%nat; PIL.pixels := [[255; 255; 255]; [255; 255; 255]] |}.

Definition dark_strip : PIL.Image :=
  {| PIL.size := (2, 1)%nat; PIL.pixels := [[0; 0; 0]; [10; 20; 30]] |}.

Definition grey_dot : PIL.Image :=
  {| PIL.size := (1, 1)%nat; PIL.pixels := [[128]] |}.

Definition no_pixels : PIL.Image :=
  {| PIL.size := (0, 0)%nat; PIL.pixels := [] |}.

(** A generator whose outputs alternate 0.75, 0.25, 0.75, ... *)
Definition coin : Random.generator :=
  {| Random.outputs := fun n => if Nat.even n then 0.75%float else 0.25%float;
     Random.position := 0 |}.

(** The same alternating outputs as [coin], two draws further on. *)
Definition coin_later : Random.generator :=
  {| Random.outputs := Random.outputs coin; Random.position := 2 |}.


(** A run with a URL and no file. *)
Definition news_only : inputs :=
  {| uploaded_file := None; url_input := "https://example.org/news" |}.

(** ** Notions the properties are stated with *)

(** A routine over the generator is pure and stateless when its result is
    the same at every generator state and it leaves the state as it was. *)
Definition pure_stateless {A B : Type} (f : A -> State Random.generator B)
  : Prop :=
  forall (a : A) (g g' : Random.generator), f a g = (eval (f a) g', g).

(** Line 124 read in exact arithmetic: the decimal literals are the
    rationals they denote and the operations are those of Q. *)
Definition final_score_exact (img_score headline_score : Q) : Q :=
  ((img_score + headline_score) / 2)%Q.

Definition medium_banner : st.element :=
  st.warning (st.Overall st.MEDIUM 0.6).

(** ** Colours and columns *)

(** The colour of a banner: [st.error] is red, [st.warning] yellow and
    [st.success] green. *)
Inductive colour : Type := Red | Yellow | Green.

Definition colour_of (e : st.element) : option colour :=
  match e with
  | st.error _ => Some Red
  | st.warning _ => Some Yellow
  | st.success _ => Some Green
  | _ => None
  end.

(** Red below yellow below green. *)
Definition colour_rank (c : colour) : nat :=
  match c with
  | Red => 0
  | Yellow => 1
  | Green => 2
  end.

(** The rank of the colour an element shows (0 for an element that is no
    banner). *)
Definition banner_rank (e : st.element) : nat :=
  match colour_of e with
  | Some c => colour_rank c
  | None => 0
  end.

Definition container_eqb (a b : st.container) : bool :=
  match a, b with
  | st.Page, st.Page | st.Col1, st.Col1 | st.Col2, st.Col2 => true
  | _, _ => false
  end.

(** The elements a run rendered in one container, in order. *)
Definition column (c : st.container) (s : session) : list st.element :=
  map snd (filter (fun p => container_eqb c (fst p)) (rendered s)).

(** The banners among them. *)
Definition banners (c : st.container) (s : session) : list st.element :=
  filter st.is_banner (column c s).

(** [dark_strip] mirrored: the same two pixels, right to left. *)
Definition dark_strip_mirrored : PIL.Image :=
  {| PIL.size := (2, 1)%nat; PIL.pixels := [[10; 20; 30]; [0; 0; 0]] |}.

(** A black image of two by two pixels. *)
Definition black_square : PIL.Image :=
  {| PIL.size := (2, 2)%nat;
     PIL.pixels := [[0; 0; 0]; [0; 0; 0]; [0; 0; 0]; [0; 0; 0]] |}.

(** An uploaded file that decodes to the given image, and one that is no
    image under an image's name. *)
Definition photo (image : PIL.Image) : UploadedFile :=
  {| name := "photo.png"; opens_as := Some image |}.

Definition not_an_image : UploadedFile :=
  {| name := "x.png"; opens_as := None |}.

(** A file that is no image, uploaded together with a URL. *)
Definition broken_upload_with_news : inputs :=
  {| uploaded_file := Some not_an_image;
     url_input := "https://example.org/news" |}.

(** ** Letter case of ASCII text *)

(** Text of ASCII characters only, on which [lower] is [str.lower]. *)
Definition is_ascii (c : ascii) : bool := (nat_of_ascii c <? 128)%nat.

Fixpoint ascii_text (s : string) : bool :=
  match s with
  | EmptyString => true
  | String c s' => is_ascii c && ascii_text s'
  end.

(** The same character, or the capital and the small form of one letter. *)
Definition same_letter (a b : ascii) : Prop :=
  a = b
  \/ ((65 <= nat_of_ascii a <= 90)%nat
      /\ nat_of_ascii b = (nat_of_ascii a + 32)%nat)
  \/ ((65 <= nat_of_ascii b <= 90)%nat
      /\ nat_of_ascii a = (nat_of_ascii b + 32)%nat).

(** Two texts that differ in letter case only. *)
Inductive caseless : string -> string -> Prop :=
| caseless_nil : caseless EmptyString EmptyString
| caseless_cons (a b : ascii) (s t : string) :
    same_letter a b -> caseless s t -> caseless (String a s) (String b t).

(** The keyword test of line 40 on a title. *)
Definition keyword_test (title : string) : bool :=
  any (fun word => str_in word (lower title)) clickbait_words.

(** * Properties *)

(** ** The order of binary64 values

    Comparisons of primitive floats are specified on [spec_float]; away from
    NaN they form a total order, which is what the threshold bands rest on. *)

Module F64Order.

Lemma SFcompare_antisym (x y : spec_float) :
  SFcompare y x = option_map CompOpp (SFcompare x y).
Proof.
  destruct x as [[]|[]| |[] m1 e1], y as [[]|[]| |[] m2 e2];
    simpl; try reflexivity;
    rewrite (Z.compare_antisym e1 e2);
    destruct (e1 ?= e2); simpl; try reflexivity;
    change (Pos.compare_cont Eq m2 m1) with (Pos.compare m2 m1);
    change (Pos.compare_cont Eq m1 m2) with (Pos.compare m1 m2);
    rewrite (Pos.compare_antisym m1 m2); destruct (m1 ?= m2)%positive;
    reflexivity.
Qed.

Lemma SFcompare_nan (x y : spec_float) :
  SFcompare x y = None <-> F64.SFnan x = true \/ F64.SFnan y = true.
Proof.
  destruct x as [[]|[]| |[] m1 e1], y as [[]|[]| |[] m2 e2]; simpl;
    intuition discriminate.
Qed.

Lemma SFltb_SFleb (x y : spec_float) :
  F64.SFnan x = false -> F64.SFnan y = false -> SFltb x y = negb (SFleb y x).
Proof.
  intros Hx Hy. unfold SFltb, SFleb. rewrite (SFcompare_antisym x y).
  destruct (SFcompare x y) as [[]|] eqn:E; simpl; try reflexivity.
  apply SFcompare_nan in E. destruct E; congruence.
Qed.

Ltac cmp_cases :=
  repeat match goal with
    | H : context [Z.compare ?a ?b] |- _ =>
        destruct (Z.compare_spec a b); simpl in H
    | |- context [Z.compare ?a ?b] =>
        destruct (Z.compare_spec a b); simpl
    | H : context [Pos.compare ?a ?b] |- _ =>
        destruct (Pos.compare_spec a b); simpl in H
    | |- context [Pos.compare ?a ?b] =>
        destruct (Pos.compare_spec a b); simpl
    end.

Lemma SFltb_SFleb_trans (x y z : spec_float) :
  SFltb x y = true -> SFleb y z = true -> SFltb x z = true.
Proof.
  unfold SFltb, SFleb.
  destruct x as [[]|[]| |[] m1 e1], y as [[]|[]| |[] m2 e2],
           z as [[]|[]| |[] m3 e3];
    simpl; try discriminate; try reflexivity;
    change (Pos.compare_cont Eq) with Pos.compare;
    intros H1 H2; cmp_cases;
    try discriminate; try reflexivity; try lia.
Qed.

Lemma is_nan_spec (x : float) : is_nan x = F64.SFnan (Prim2SF x).
Proof.
  unfold is_nan. rewrite FloatAxioms.eqb_spec. unfold SFeqb.
  destruct (Prim2SF x) as [[]|[]| |[] m e]; simpl; try reflexivity;
    rewrite Z.compare_refl;
    change (Pos.compare_cont Eq m m) with (Pos.compare m m);
    rewrite Pos.compare_refl; reflexivity.
Qed.

Lemma ltb_negb_leb (x y : float) :
  is_nan x = false -> is_nan y = false ->
  (x <? y)%float = negb (y <=? x)%float.
Proof.
  rewrite !is_nan_spec, FloatAxioms.ltb_spec, FloatAxioms.leb_spec. apply SFltb_SFleb.
Qed.

Lemma ltb_leb_trans (x y z : float) :
  (x <? y)%float = true -> (y <=? z)%float = true -> (x <? z)%float = true.
Proof.
  rewrite !FloatAxioms.ltb_spec, FloatAxioms.leb_spec. apply SFltb_SFleb_trans.
Qed.

Lemma leb_not_nan (x y : float) :
  (x <=? y)%float = true -> is_nan x = false /\ is_nan y = false.
Proof.
  rewrite !is_nan_spec, FloatAxioms.leb_spec. unfold SFleb.
  destruct (SFcompare (Prim2SF x) (Prim2SF y)) as [c|] eqn:E;
    [|discriminate].
  intros _.
  destruct (F64.SFnan (Prim2SF x)) eqn:Hx, (F64.SFnan (Prim2SF y)) eqn:Hy;
    try (split; reflexivity);
    assert (N : SFcompare (Prim2SF x) (Prim2SF y) = None)
      by (apply SFcompare_nan; auto); congruence.
Qed.

End F64Order.

(** ** What lines 48 to 134 render *)

Section Run.

Local Open Scope string_scope.
Local Open Scope list_scope.

(** The URL column, started in any session. *)
Lemma url_column_spec (url : string) (s : session) :
  url_column url s =
    (tt,
     {| rng := rng s;
        rendered := rendered s
                    ++ col2_head
                    ++ if truthy url
                       then col2_body (analyze_headline url)
                       else [];
        calls := calls s
                 ++ if truthy url then [AnalyzeHeadline] else [] |}).
Proof.
  with_strategy opaque [analyze_headline] (
    unfold url_column, bind, emit, call, modify, ret;
    cbn [rng rendered calls];
    destruct (truthy url);
    [ destruct (analyze_headline url) as [headline_result headline_score]
    | ];
    cbn [rng rendered calls fst snd col2_body col2_head];
    rewrite <- ?app_assoc, ?app_nil_r; reflexivity).
Qed.

(** The image column, started in any session. *)
Lemma image_column_spec (up : option UploadedFile) (s : session) :
  image_column up s =
    if decodes up
    then (Ok tt,
          {| rng := match opened up with
                    | Some image => exec (analyze_image image) (rng s)
                    | None => rng s
                    end;
             rendered := rendered s
                         ++ col1_head
                         ++ match opened up with
                            | Some image =>
                                col1_body (eval (analyze_image image) (rng s))
                            | None => []
                            end;
             calls := calls s
                      ++ match opened up with
                         | Some _ => [AnalyzeImage]
                         | None => []
                         end |})
    else (Raised UnidentifiedImageError,
          {| rng := rng s;
             rendered := rendered s ++ col1_head;
             calls := calls s |}).
Proof.
  with_strategy opaque [analyze_image] (
    destruct up as [[nm [image|]]|];
    unfold image_column, Image_open, andthen, lift, done, raise, bind, emit,
      call, modify, ret, exec, eval, decodes, opened;
    cbn [rng rendered calls opens_as];
    [ destruct (analyze_image image (rng s)) as [[result score] g'] | | ];
    cbn [rng rendered calls fst snd col1_body col1_head];
    rewrite <- ?app_assoc, ?app_nil_r; reflexivity).
Qed.

(** Lines 48 to 134 from a fresh session. *)
Lemma page_spec (inp : inputs) (g : Random.generator) :
  page inp (fresh g) =
    if decodes (uploaded_file inp)
    then (Ok tt,
          {| rng := match opened (uploaded_file inp) with
                    | Some image => exec (analyze_image image) g
                    | None => g
                    end;
             rendered :=
               page_head
               ++ (col1_head
                   ++ match opened (uploaded_file inp) with
                      | Some image => col1_body (eval (analyze_image image) g)
                      | None => []
                      end)
               ++ (col2_head
                   ++ if truthy (url_input inp)
                      then col2_body (analyze_headline (url_input inp))
                      else []);
             calls :=
               match opened (uploaded_file inp) with
               | Some _ => [AnalyzeImage]
               | None => []
               end
               ++ if truthy (url_input inp) then [AnalyzeHeadline] else [] |})
    else (Raised UnidentifiedImageError,
          {| rng := g; rendered := page_head ++ col1_head; calls := [] |}).
Proof.
  unfold page. unfold andthen at 1 2 3 4.
  unfold lift at 1 2 3, emit at 1 2 3, modify, fresh.
  cbn [rng rendered calls app].
  rewrite image_column_spec.
  destruct (decodes (uploaded_file inp)); [|reflexivity].
  unfold lift. rewrite url_column_spec.
  cbn [rng rendered calls snd app]. reflexivity.
Qed.

Lemma render_spec (inp : inputs) (g : Random.generator) :
  render inp g = snd (page inp (fresh g)).
Proof. reflexivity. Qed.

Lemma render_rendered (inp : inputs) (g : Random.generator) :
  rendered (render inp g) =
    if decodes (uploaded_file inp)
    then page_head
         ++ (col1_head
             ++ match opened (uploaded_file inp) with
                | Some image => col1_body (eval (analyze_image image) g)
                | None => []
                end)
         ++ (col2_head
             ++ if truthy (url_input inp)
                then col2_body (analyze_headline (url_input inp))
                else [])
    else page_head ++ col1_head.
Proof.
  unfold render. rewrite page_spec.
  destruct (decodes (uploaded_file inp)); reflexivity.
Qed.

Lemma render_calls (inp : inputs) (g : Random.generator) :
  calls (render inp g) =
    if decodes (uploaded_file inp)
    then match opened (uploaded_file inp) with
         | Some _ => [AnalyzeImage]
         | None => []
         end
         ++ if truthy (url_input inp) then [AnalyzeHeadline] else []
    else [].
Proof.
  unfold render. rewrite page_spec.
  destruct (decodes (uploaded_file inp)); reflexivity.
Qed.

Lemma render_rng (inp : inputs) (g : Random.generator) :
  rng (render inp g) =
    match opened (uploaded_file inp) with
    | Some image => exec (analyze_image image) g
    | None => g
    end.
Proof.
  unfold render. rewrite page_spec.
  destruct (uploaded_file inp) as [[nm [image|]]|]; reflexivity.
Qed.

Lemma outcome_spec (inp : inputs) (g : Random.generator) :
  outcome inp g =
    if decodes (uploaded_file inp)
    then Ok tt
    else Raised UnidentifiedImageError.
Proof.
  unfold outcome. rewrite page_spec.
  destruct (decodes (uploaded_file inp)); reflexivity.
Qed.

(** The literal opened on line 136 is not closed on its line. *)
Lemma line_136_unterminated :
  literal_closes false 0 after_opening_quote = false.
Proof. reflexivity. Qed.

(** Written with escapes, the same literal would be closed. *)
Example escaped_literal_closes :
  literal_closes false 0 after_opening_quote_escaped = true.
Proof. reflexivity. Qed.

(** The file as given: nothing runs. *)
Lemma app_py_spec (inp : inputs) (s : session) :
  app_py inp s = (Raised (SyntaxError 136), s).
Proof. unfold app_py. rewrite line_136_unterminated. reflexivity. Qed.

Lemma run_spec (inp : inputs) (g : Random.generator) : run inp g = fresh g.
Proof. unfold run. rewrite app_py_spec. reflexivity. Qed.

End Run.

(** ** analyze_image *)

(** The monadic body of [analyze_image] as a plain conditional. *)
Lemma analyze_image_unfold (image : PIL.Image) (g : Random.generator) :
  analyze_image image g =
    if F64.gt (np.mean (np.array image)) 128 then (likely_ai, g)
    else if F64.gt (eval Random.random g) 0.5
         then (likely_authentic, exec Random.random g)
         else (inconclusive, exec Random.random g).
Proof.
  unfold analyze_image, bind, ret, eval, exec.
  destruct (F64.gt (np.mean (np.array image)) 128); [reflexivity|].
  cbn [Random.random fst snd].
  destruct (F64.gt (Random.outputs g (Random.position g)) 0.5); reflexivity.
Qed.

Lemma analyze_image_verdicts (image : PIL.Image) (g : Random.generator) :
  eval (analyze_image image) g = likely_ai
  \/ eval (analyze_image image) g = likely_authentic
  \/ eval (analyze_image image) g = inconclusive.
Proof.
  unfold eval. rewrite analyze_image_unfold.
  destruct (F64.gt (np.mean (np.array image)) 128); [now left|].
  destruct (F64.gt (eval Random.random g) 0.5); [right; now left|].
  right; now right.
Qed.

Example analyze_white_strip :
  analyze_image white_strip coin = (likely_ai, coin).
Proof. reflexivity. Qed.

Example analyze_dark_strip :
  eval (analyze_image dark_strip) coin = likely_authentic.
Proof. reflexivity. Qed.

(** The comparison is strict: a mean of exactly 128 is not "over 128". *)
Example analyze_grey_dot :
  np.mean (np.array grey_dot) = 128%float
  /\ eval (analyze_image grey_dot) coin = likely_authentic.
Proof. split; reflexivity. Qed.

(** The mean of no samples is NaN, which is not greater than 128. *)
Example analyze_no_pixels :
  is_nan (np.mean (np.array no_pixels)) = true
  /\ eval (analyze_image no_pixels) coin = likely_authentic.
Proof. split; reflexivity. Qed.

(** C1.  For every input image, [analyze_image] takes the mean of all the
    samples of the image (their sum divided by their number) and compares it
    with 128: when the mean exceeds 128 the result is
    ("Likely AI-Generated", 0.2) and the generator is not consulted;
    otherwise one draw is made, and the result is ("Likely Authentic", 0.9)
    when the draw exceeds 0.5 and ("Analysis Inconclusive", 0.6) when it does
    not. *)
Theorem analyze_image_spec (image : PIL.Image) (g : Random.generator) :
  let samples := List.concat (PIL.pixels image) in
  let total := fold_left Z.add samples 0 in
  let count := Z.of_nat (List.length samples) in
  let mean := (F64.of_Z total / F64.of_Z count)%float in
  let draw := Random.outputs g (Random.position g) in
  let g' := {| Random.outputs := Random.outputs g;
               Random.position := S (Random.position g) |} in
  analyze_image image g =
    if (128 <? mean)%float
    then (("Likely AI-Generated"%string, 0.2%float), g)
    else if (0.5 <? draw)%float
         then (("Likely Authentic"%string, 0.9%float), g')
         else (("Analysis Inconclusive"%string, 0.6%float), g').
Proof.
  intros samples total count mean draw g'.
  rewrite analyze_image_unfold. reflexivity.
Qed.

(** ** The threshold bands of the banners *)

Section Bands.

Variable s : float.
Hypothesis s_number : is_nan s = false.

Lemma half_le : (0.5 <=? s)%float = negb (s <? 0.5)%float.
Proof.
  rewrite (F64Order.ltb_negb_leb s 0.5 s_number eq_refl).
  now rewrite negb_involutive.
Qed.

Lemma seven_tenths_le : (0.7 <=? s)%float = negb (s <? 0.7)%float.
Proof.
  rewrite (F64Order.ltb_negb_leb s 0.7 s_number eq_refl).
  now rewrite negb_involutive.
Qed.

Lemma below_half_below_seven_tenths :
  (s <? 0.5)%float = true -> (s <? 0.7)%float = true.
Proof.
  intros H. apply (F64Order.ltb_leb_trans s 0.5 0.7 H). reflexivity.
Qed.

End Bands.

(** A value in [0, 1] is a number. *)
Lemma in_unit_number (s : float) : F64.in_unit s = true -> is_nan s = false.
Proof.
  unfold F64.in_unit. intros H. apply andb_prop in H as [H _].
  apply (F64Order.leb_not_nan 0 s H).
Qed.

(** At NaN, which is no score, every comparison fails and the last branch
    is taken. *)
Remark result_banner_nan (result : string) :
  result_banner result nan = st.success (st.Result result nan).
Proof. reflexivity. Qed.

(** C2.  In both output blocks the banner follows the documented bands: for
    every score [s] (a binary64 number, so not NaN) the red error banner is
    shown iff [s < 0.5], the yellow warning banner iff [0.5 <= s < 0.7], and
    the green success banner iff [s >= 0.7]; this holds for the banner of the
    image column and for the banner of the combined URL score. *)
Theorem banner_bands (s : float) (result : string) :
  is_nan s = false ->
  (st.is_error (result_banner result s) = true <-> (s <? 0.5)%float = true)
  /\ (st.is_warning (result_banner result s) = true
      <-> (0.5 <=? s)%float = true /\ (s <? 0.7)%float = true)
  /\ (st.is_success (result_banner result s) = true <-> F64.ge s 0.7 = true)
  /\ (st.is_error (overall_banner s) = true <-> (s <? 0.5)%float = true)
  /\ (st.is_warning (overall_banner s) = true
      <-> (0.5 <=? s)%float = true /\ (s <? 0.7)%float = true)
  /\ (st.is_success (overall_banner s) = true <-> F64.ge s 0.7 = true).
Proof.
  intros Hs. unfold F64.ge, result_banner, overall_banner.
  rewrite (half_le s Hs), (seven_tenths_le s Hs).
  pose proof (below_half_below_seven_tenths s) as Ht.
  destruct (s <? 0.5)%float, (s <? 0.7)%float; cbn;
    try (specialize (Ht eq_refl)); intuition congruence.
Qed.

Lemma banner_bands_witness :
  is_nan 0.6%float = false
  /\ st.is_warning (result_banner "Analysis Inconclusive" 0.6) = true.
Proof.
  split; [reflexivity|].
  apply (proj1 (proj2 (banner_bands 0.6 "Analysis Inconclusive" eq_refl))).
  split; reflexivity.
Defined.

(** ** analyze_headline *)

(** C3.  [analyze_headline] never uses the URL it is given: the keyword
    match runs on the hardcoded placeholder title, so any two URLs get the
    same (label, score) pair. *)
Theorem analyze_headline_ignores_url (u1 u2 : string) :
  analyze_headline u1 = analyze_headline u2.
Proof. reflexivity. Qed.

(** ** Purity *)

(** Two calls in a row on the same dark image: the first returns
    ("Likely Authentic", 0.9), the second ("Analysis Inconclusive", 0.6),
    and the generator has moved on. *)
Lemma analyze_image_two_calls_differ :
  eval (analyze_image dark_strip) coin
    = ("Likely Authentic"%string, 0.9%float)
  /\ eval (analyze_image dark_strip) (exec (analyze_image dark_strip) coin)
    = ("Analysis Inconclusive"%string, 0.6%float)
  /\ Random.position (exec (analyze_image dark_strip) coin)
     <> Random.position coin
  /\ ~ pure_stateless analyze_image.
Proof.
  split; [reflexivity|]. split; [reflexivity|]. split; [discriminate|].
  intros H. specialize (H dark_strip coin coin).
  apply (f_equal (fun r => Random.position (snd r))) in H.
  discriminate H.
Qed.

(** C4, as the code has it.  [analyze_headline] is a pure stateless
    function: its result is the same at every state and the URL column, which
    calls it, leaves the generator untouched.  [analyze_image] is pure only on
    an image whose mean exceeds 128; on any other image it makes exactly one
    draw, so it advances the generator by one position, and its verdict is a
    function of the image and of that draw alone.  The generator's output
    sequence is never changed. *)
Theorem routines_purity (image : PIL.Image) (g : Random.generator) :
  pure_stateless (fun url : string => ret (analyze_headline url))
  /\ (forall (url : string) (s : session),
        rng (exec (url_column url) s) = rng s)
  /\ Random.outputs (exec (analyze_image image) g) = Random.outputs g
  /\ (F64.gt (np.mean (np.array image)) 128 = true ->
      forall g2 : Random.generator,
        analyze_image image g2 = (eval (analyze_image image) g, g2))
  /\ (F64.gt (np.mean (np.array image)) 128 = false ->
      Random.position (exec (analyze_image image) g)
        = S (Random.position g))
  /\ (forall g2 : Random.generator,
        eval Random.random g2 = eval Random.random g ->
        eval (analyze_image image) g2 = eval (analyze_image image) g).
Proof.
  split; [|split; [|split; [|split; [|split]]]].
  - intros url g1 g2. reflexivity.
  - intros url s. unfold exec. rewrite url_column_spec. reflexivity.
  - unfold exec. rewrite analyze_image_unfold.
    destruct (F64.gt (np.mean (np.array image)) 128); [reflexivity|].
    destruct (F64.gt (eval Random.random g) 0.5); reflexivity.
  - intros H g2. unfold eval. rewrite !analyze_image_unfold, H. reflexivity.
  - intros H. unfold exec. rewrite analyze_image_unfold, H.
    destruct (F64.gt (eval Random.random g) 0.5); reflexivity.
  - intros g2 H. unfold eval at 1 2. rewrite !analyze_image_unfold, H.
    destruct (F64.gt (np.mean (np.array image)) 128); [reflexivity|].
    destruct (F64.gt (eval Random.random g) 0.5); reflexivity.
Qed.

(** ** Score bounds *)

Lemma analyze_image_score_in_unit (image : PIL.Image) (g : Random.generator) :
  F64.in_unit (snd (eval (analyze_image image) g)) = true.
Proof.
  destruct (analyze_image_verdicts image g) as [H|[H|H]]; rewrite H;
    reflexivity.
Qed.

Lemma result_banner_score (result : string) (score : float) :
  st.score_of (result_banner result score) = Some score.
Proof.
  unfold result_banner.
  destruct (score <? 0.5)%float, (score <? 0.7)%float; reflexivity.
Qed.

Lemma overall_banner_score (final : float) :
  st.score_of (overall_banner final) = Some final.
Proof.
  unfold overall_banner.
  destruct (final <? 0.5)%float, (final <? 0.7)%float; reflexivity.
Qed.

Lemma result_banner_is_banner (result : string) (score : float) :
  st.is_banner (result_banner result score) = true.
Proof.
  unfold result_banner.
  destruct (score <? 0.5)%float, (score <? 0.7)%float; reflexivity.
Qed.

Lemma overall_banner_is_banner (final : float) :
  st.is_banner (overall_banner final) = true.
Proof.
  unfold overall_banner.
  destruct (final <? 0.5)%float, (final <? 0.7)%float; reflexivity.
Qed.

(** Case analysis on membership in an explicit list of elements. *)
Ltac each_element :=
  repeat match goal with
    | H : _ \/ _ |- _ => destruct H as [H|H]
    | H : False |- _ => destruct H
    | H : (_, _) = (_, _) |- _ => inversion H; subst; clear H
    end.

(** In exact arithmetic the average of two values of [0, 1] is in [0, 1],
    whatever the two routines return. *)
Remark final_score_exact_in_unit (a b : Q) :
  (0 <= a <= 1)%Q -> (0 <= b <= 1)%Q ->
  (0 <= final_score_exact a b <= 1)%Q.
Proof.
  unfold final_score_exact. intros [Ha0 Ha1] [Hb0 Hb1].
  split; [apply Qle_shift_div_l | apply Qle_shift_div_r]; lra.
Qed.

(** C5.  Every score the program produces lies in [0, 1]: the score of
    [analyze_image] for every image (and every state of the generator), the
    score of [analyze_headline] for every URL, the combined
    [final_score = (img_score + headline_score) / 2] the URL column computes
    from them, and with that every score printed by any element of a run. *)
Theorem scores_in_unit_interval :
  (forall (image : PIL.Image) (g : Random.generator),
      F64.in_unit (snd (eval (analyze_image image) g)) = true)
  /\ (forall url : string, F64.in_unit (snd (analyze_headline url)) = true)
  /\ (forall url : string,
        F64.in_unit (final_score 0.9 (snd (analyze_headline url))) = true)
  /\ (forall (inp : inputs) (g : Random.generator)
             (c : st.container) (e : st.element) (s : float),
        In (c, e) (rendered (run inp g)) ->
        st.score_of e = Some s ->
        F64.in_unit s = true).
Proof.
  split; [exact analyze_image_score_in_unit|].
  split; [reflexivity|]. split; [reflexivity|].
  intros inp g c e s Hin Hs. rewrite run_spec in Hin. destruct Hin.
Qed.

(** C6.  For every URL, [analyze_headline] returns exactly
    ("High Sensationalism Detected", 0.3): the lowercased placeholder title
    contains a clickbait word ("shocking", the first one tried), so the
    ("Low Sensationalism", 0.8) branch is never taken. *)
Theorem analyze_headline_constant (url : string) :
  analyze_headline url = ("High Sensationalism Detected"%string, 0.3%float)
  /\ str_in "shocking" (lower placeholder_title) = true
  /\ In "shocking"%string clickbait_words
  /\ any (fun word => str_in word (lower placeholder_title)) clickbait_words
     = true
  /\ analyze_headline url <> ("Low Sensationalism"%string, 0.8%float).
Proof.
  split; [reflexivity|]. split; [reflexivity|]. split; [now left|].
  split; [reflexivity|]. discriminate.
Qed.

(** The keyword match itself is not degenerate: on another title it fails. *)
Example no_clickbait_word_in_plain_title :
  any (fun word => str_in word (lower "Scientists Publish Annual Report"))
      clickbait_words = false.
Proof. reflexivity. Qed.

(** ** The combined score *)

(** Membership in the elements of lines 48 to 134, column by column. *)
Lemma in_render (inp : inputs) (g : Random.generator)
      (c : st.container) (e : st.element) :
  In (c, e) (rendered (render inp g)) <->
    In (c, e) page_head
    \/ In (c, e) col1_head
    \/ (exists image, opened (uploaded_file inp) = Some image
                      /\ In (c, e) (col1_body (eval (analyze_image image) g)))
    \/ (decodes (uploaded_file inp) = true /\ In (c, e) col2_head)
    \/ (decodes (uploaded_file inp) = true
        /\ truthy (url_input inp) = true
        /\ In (c, e) (col2_body (analyze_headline (url_input inp)))).
Proof.
  rewrite render_rendered.
  destruct (uploaded_file inp) as [[nm [image|]]|],
           (truthy (url_input inp));
    cbn [decodes opened opens_as]; rewrite ?in_app_iff;
    cbn [In]; split; intros H;
    repeat match goal with
      | H : _ \/ _ |- _ => destruct H as [H|H]
      | H : _ /\ _ |- _ => destruct H as [? H]
      | H : exists _, _ |- _ => destruct H as [? H]
      | H : False |- _ => destruct H
      | H : Some _ = Some _ |- _ => injection H as H; subst
      end;
    try discriminate; eauto 8.
Qed.

Lemma truthy_empty (s : string) : truthy s = false <-> s = ""%string.
Proof. destruct s; cbn; split; congruence. Qed.

Lemma truthy_nonempty (s : string) : s <> ""%string -> truthy s = true.
Proof. destruct s; [congruence | reflexivity]. Qed.

(** With a file that is no image the URL column is not reached: a non-empty
    URL, and no element at all in the right column.  (As the file is given,
    nothing is rendered in any case.) *)
Lemma url_column_not_reached :
  url_input broken_upload_with_news <> ""%string
  /\ outcome broken_upload_with_news coin = Raised UnidentifiedImageError
  /\ (forall e : st.element,
        ~ In (st.Col2, e) (rendered (render broken_upload_with_news coin)))
  /\ rendered (run broken_upload_with_news coin) = [].
Proof.
  split; [discriminate|]. split; [reflexivity|]. split; [|reflexivity].
  intros e H. apply in_render in H.
  destruct H as [H|[H|[[image [Hi _]]|[[Hd _]|[Hd _]]]]];
    try discriminate;
    cbn [In page_head col1_head] in H; each_element.
Qed.

(** C7, as the code has it.  For every URL the combined score of line 124 is
    (0.9 + 0.3) / 2 = 0.6: exactly 6/10 in exact arithmetic, and in binary64
    the float written 0.6, which is within 2^-54 of 6/10; the banner block of
    lines 129 to 134 selects MEDIUM for it.  Executing lines 48 to 134 with a
    non-empty URL and an upload that decodes (or none), the URL column
    renders the MEDIUM warning banner, and it is the only banner of that
    column: the LOW and HIGH banners are never rendered. *)
Theorem combined_score_is_medium (inp : inputs) (g : Random.generator) :
  url_input inp <> ""%string ->
  decodes (uploaded_file inp) = true ->
  (final_score_exact (9 # 10) (3 # 10) == 6 # 10)%Q
  /\ final_score 0.9 (snd (analyze_headline (url_input inp))) = 0.6%float
  /\ (exists q : Q,
        F64.to_Q (final_score 0.9 (snd (analyze_headline (url_input inp))))
          = Some q
        /\ ((6 # 10) - (1 # 2 ^ 54) <= q)%Q
        /\ (q <= (6 # 10) + (1 # 2 ^ 54))%Q)
  /\ overall_banner (final_score 0.9 (snd (analyze_headline (url_input inp))))
     = medium_banner
  /\ In (st.Col2, medium_banner) (rendered (render inp g))
  /\ (forall e : st.element,
        In (st.Col2, e) (rendered (render inp g)) ->
        st.is_banner e = true -> e = medium_banner).
Proof.
  intros Hurl Hdec. pose proof (truthy_nonempty _ Hurl) as Ht.
  split; [reflexivity|]. split; [reflexivity|].
  split.
  { eexists. split; [vm_compute; reflexivity|].
    split; vm_compute; discriminate. }
  split; [reflexivity|]. split.
  - apply in_render. do 4 right. split; [exact Hdec|]. split; [exact Ht|].
    cbn [col2_body In]. do 6 right. left. reflexivity.
  - intros e Hin Hb. apply in_render in Hin.
    destruct Hin as [H|[H|[[image [_ H]]|[[_ H]|[_ [_ H]]]]]];
      cbn [In page_head col1_head col1_body col2_head col2_body] in H;
      each_element; try discriminate Hb.
    reflexivity.
Qed.

Lemma combined_score_is_medium_witness :
  url_input news_only <> ""%string
  /\ decodes (uploaded_file news_only) = true
  /\ In (st.Col2, medium_banner) (rendered (render news_only coin)).
Proof.
  assert (H : url_input news_only <> ""%string) by discriminate.
  assert (D : decodes (uploaded_file news_only) = true) by reflexivity.
  split; [exact H|]. split; [exact D|].
  apply (combined_score_is_medium news_only coin H D).
Defined.

(** ** Errors and absent input *)



(** When each routine is called in lines 48 to 134. *)
Lemma called_image (inp : inputs) (g : Random.generator) :
  In AnalyzeImage (calls (render inp g))
  <-> opened (uploaded_file inp) <> None.
Proof.
  rewrite render_calls.
  destruct (uploaded_file inp) as [[nm [image|]]|],
           (truthy (url_input inp));
    cbn [decodes opened opens_as In app]; split; intros H;
    try congruence; try (now left);
    repeat match goal with H : _ \/ _ |- _ => destruct H as [H|H] end;
    try discriminate; try contradiction.
Qed.

Lemma called_headline (inp : inputs) (g : Random.generator) :
  In AnalyzeHeadline (calls (render inp g))
  <-> truthy (url_input inp) = true /\ decodes (uploaded_file inp) = true.
Proof.
  rewrite render_calls.
  destruct (uploaded_file inp) as [[nm [image|]]|],
           (truthy (url_input inp));
    cbn [decodes opened opens_as In app]; split; intros H;
    try (split; reflexivity); try tauto;
    repeat match goal with
           | H : _ \/ _ |- _ => destruct H as [H|H]
           | H : _ /\ _ |- _ => destruct H as [? H]
           end;
    try discriminate; try contradiction.
Qed.

(** With a file that is no image and a URL, both inputs are present and yet
    neither routine is called and no banner is rendered.  (As the file is
    given, no routine is called in any case.) *)
Lemma analysis_skipped_with_input_present :
  uploaded_file broken_upload_with_news <> None
  /\ ~ In AnalyzeImage (calls (render broken_upload_with_news coin))
  /\ url_input broken_upload_with_news <> ""%string
  /\ ~ In AnalyzeHeadline (calls (render broken_upload_with_news coin))
  /\ (forall (c : st.container) (e : st.element),
        In (c, e) (rendered (render broken_upload_with_news coin)) ->
        st.is_banner e = false)
  /\ calls (run broken_upload_with_news coin) = [].
Proof.
  split; [discriminate|]. split; [intros []|]. split; [discriminate|].
  split; [intros []|]. split; [|reflexivity].
  intros c e H. apply in_render in H.
  destruct H as [H|[H|[[image [Hi _]]|[[Hd _]|[Hd _]]]]];
    try discriminate;
    cbn [In page_head col1_head] in H; each_element; reflexivity.
Qed.

(** C9, as the code has it.  When input is absent the analysis is skipped:
    with no uploaded file [analyze_image] is not called and no result banner
    is rendered in the image column, and with an empty URL field
    [analyze_headline] is not called and no combined banner is rendered in
    the URL column.  There is one more condition: an uploaded file that
    [Image.open] cannot decode ends the script on line 90, and then neither
    routine is called and neither column gets a banner.  Executing lines 48
    to 134, these are the only conditions. *)
Theorem absent_input_skips_analysis (inp : inputs) (g : Random.generator) :
  (~ In AnalyzeImage (calls (render inp g)) <->
   uploaded_file inp = None \/ decodes (uploaded_file inp) = false)
  /\ ((forall e : st.element,
         In (st.Col1, e) (rendered (render inp g)) -> st.is_banner e = false)
      <-> uploaded_file inp = None \/ decodes (uploaded_file inp) = false)
  /\ (~ In AnalyzeHeadline (calls (render inp g)) <->
      url_input inp = ""%string \/ decodes (uploaded_file inp) = false)
  /\ ((forall e : st.element,
         In (st.Col2, e) (rendered (render inp g)) -> st.is_banner e = false)
      <-> url_input inp = ""%string \/ decodes (uploaded_file inp) = false).
Proof.
  rewrite <- (truthy_empty (url_input inp)), called_image, called_headline.
  split; [|split; [|split]].
  - destruct (uploaded_file inp) as [[nm [image|]]|];
      cbn [decodes opened opens_as]; split; intros H;
      try (destruct H; discriminate); try (now left); try (now right);
      try (intros Hn; apply Hn; reflexivity);
      exfalso; apply H; discriminate.
  - split.
    + intros H.
      destruct (uploaded_file inp) as [[nm [image|]]|] eqn:Hup;
        [exfalso | now right | now left].
      specialize (H (result_banner (fst (eval (analyze_image image) g))
                                   (snd (eval (analyze_image image) g)))).
      rewrite result_banner_is_banner in H. apply diff_true_false, H.
      apply in_render. do 2 right. left. exists image. rewrite Hup.
      split; [reflexivity|]. cbn [col1_body In]. tauto.
    + intros Habs e Hin. apply in_render in Hin.
      destruct Hin as [H|[H|[[image [Hi H]]|[[_ H]|[_ [_ H]]]]]];
        try (cbn [In page_head col1_head col2_head col2_body] in H;
             each_element; reflexivity).
      exfalso. destruct Habs as [Hn|Hd].
      * rewrite Hn in Hi. discriminate Hi.
      * destruct (uploaded_file inp) as [[nm [im|]]|]; discriminate.
  - destruct (truthy (url_input inp)), (decodes (uploaded_file inp));
      split; intros H;
      try (destruct H; discriminate); try (now left); try (now right);
      try (intros [? ?]; discriminate);
      exfalso; apply H; split; reflexivity.
  - split.
    + intros H.
      destruct (decodes (uploaded_file inp)) eqn:Hd; [|now right].
      destruct (truthy (url_input inp)) eqn:Hurl; [exfalso | now left].
      specialize
        (H (overall_banner
              (final_score 0.9 (snd (analyze_headline (url_input inp)))))).
      rewrite overall_banner_is_banner in H. apply diff_true_false, H.
      apply in_render. do 4 right. split; [exact Hd|]. split; [exact Hurl|].
      cbn [col2_body In]. tauto.
    + intros Habs e Hin. apply in_render in Hin.
      destruct Hin as [H|[H|[[image [_ H]]|[[Hd H]|[Hd [Hf H]]]]]];
        try (cbn [In page_head col1_head col1_body col2_head] in H;
             each_element; reflexivity).
      exfalso. destruct Habs as [Hn|Hn]; congruence.
Qed.

(** ** What analyze_image looks at *)

(** C10.  The result of [analyze_image] depends on the image only through
    the truth value of "mean > 128", and on the generator only through the
    draw: two images that agree on the comparison, analysed with the same
    draw, get identical (label, score) pairs. *)
Theorem analyze_image_depends_on_comparison_and_draw
        (image1 image2 : PIL.Image) (g1 g2 : Random.generator) :
  F64.gt (np.mean (np.array image1)) 128
    = F64.gt (np.mean (np.array image2)) 128 ->
  eval Random.random g1 = eval Random.random g2 ->
  eval (analyze_image image1) g1 = eval (analyze_image image2) g2.
Proof.
  intros Hcmp Hdraw. unfold eval at 1 2.
  rewrite !analyze_image_unfold, Hcmp, Hdraw.
  destruct (F64.gt (np.mean (np.array image2)) 128); [reflexivity|].
  destruct (F64.gt (eval Random.random g2) 0.5); reflexivity.
Qed.

Lemma analyze_image_depends_on_comparison_and_draw_witness :
  eval (analyze_image dark_strip) coin
    = eval (analyze_image grey_dot) coin_later.
Proof.
  apply (analyze_image_depends_on_comparison_and_draw
           dark_strip grey_dot coin coin_later); reflexivity.
Defined.

(** * Further properties of the routines and of the script *)

(** ** The mean looks at the samples as a bag *)

Lemma fold_left_add_acc (a : list Z) (acc : Z) :
  fold_left Z.add a acc = acc + fold_left Z.add a 0.
Proof.
  revert acc. induction a as [|x a IH]; intros acc; cbn [fold_left].
  - lia.
  - rewrite (IH (acc + x)), (IH (0 + x)). lia.
Qed.

Lemma sum_cons (x : Z) (a : list Z) : np.sum (x :: a) = x + np.sum a.
Proof.
  unfold np.sum. cbn [fold_left]. rewrite fold_left_add_acc. lia.
Qed.

Lemma sum_permutation (a b : list Z) :
  Permutation a b -> np.sum a = np.sum b.
Proof.
  induction 1 as [|x a b _ IH|x y a|a b c _ IH1 _ IH2].
  - reflexivity.
  - rewrite !sum_cons, IH. reflexivity.
  - rewrite !sum_cons. lia.
  - now rewrite IH1.
Qed.

Lemma mean_permutation (a b : list Z) :
  Permutation a b -> np.mean a = np.mean b.
Proof.
  intros H. unfold np.mean.
  now rewrite (sum_permutation a b H), (Permutation_length H).
Qed.

(** X1.  [analyze_image] sees an image only as the bag of its samples: two
    images whose samples are the same up to order (a mirrored, rotated or
    reshaped copy, or the bands regrouped) get the same verdict and leave
    the generator in the same state. *)
Theorem analyze_image_rearranged
        (image1 image2 : PIL.Image) (g : Random.generator) :
  Permutation (np.array image1) (np.array image2) ->
  analyze_image image1 g = analyze_image image2 g.
Proof.
  intros H. rewrite !analyze_image_unfold.
  now rewrite (mean_permutation _ _ H).
Qed.

Lemma analyze_image_rearranged_witness :
  Permutation (np.array dark_strip) (np.array dark_strip_mirrored)
  /\ analyze_image dark_strip coin = analyze_image dark_strip_mirrored coin.
Proof.
  assert (H : Permutation (np.array dark_strip) (np.array dark_strip_mirrored))
    by exact (Permutation_app_comm [0; 0; 0] [10; 20; 30]).
  split; [exact H|].
  exact (analyze_image_rearranged dark_strip dark_strip_mirrored coin H).
Defined.

(** ** Black images *)

Lemma sum_all_zero (a : list Z) :
  Forall (fun v => v = 0) a -> np.sum a = 0.
Proof.
  induction 1 as [|x a Hx _ IH]; [reflexivity|].
  rewrite sum_cons, IH, Hx. reflexivity.
Qed.

(** Zero divided by anything is a zero or NaN, so it is not above 128. *)
Lemma zero_div_not_above (y : float) :
  F64.gt (PrimFloat.zero / y) 128 = false.
Proof.
  unfold F64.gt. rewrite FloatAxioms.ltb_spec, FloatAxioms.div_spec.
  destruct (Prim2SF y) as [[]|[]| |[] m e]; reflexivity.
Qed.

(** X2.  An image all of whose samples are 0 is never labelled
    "Likely AI-Generated", whatever its size (also with no pixel at all):
    its verdict is decided by the draw alone. *)
Theorem black_image_never_ai (image : PIL.Image) (g : Random.generator) :
  Forall (fun v => v = 0) (np.array image) ->
  analyze_image image g =
    if F64.gt (eval Random.random g) 0.5
    then (likely_authentic, exec Random.random g)
    else (inconclusive, exec Random.random g).
Proof.
  intros H. rewrite analyze_image_unfold. unfold np.mean.
  rewrite (sum_all_zero _ H). cbn [F64.of_Z].
  now rewrite zero_div_not_above.
Qed.

Lemma black_image_never_ai_witness :
  Forall (fun v => v = 0) (np.array black_square)
  /\ eval (analyze_image black_square) coin = likely_authentic.
Proof.
  assert (H : Forall (fun v => v = 0) (np.array black_square))
    by (repeat constructor).
  split; [exact H|].
  unfold eval. rewrite (black_image_never_ai black_square coin H).
  reflexivity.
Defined.

(** ** The columns of lines 48 to 134 *)

Lemma column_of_app (c : st.container) (g1 g2 g3 : Random.generator)
      (l1 l2 : list (st.container * st.element)) (k1 k2 k3 : list routine) :
  column c {| rng := g1; rendered := l1 ++ l2; calls := k1 |}
  = column c {| rng := g2; rendered := l1; calls := k2 |}
    ++ column c {| rng := g3; rendered := l2; calls := k3 |}.
Proof.
  unfold column. cbn [rendered]. now rewrite filter_app, map_app.
Qed.

Lemma column_rendered (c : st.container) (s : session) :
  column c s = column c {| rng := rng s; rendered := rendered s; calls := [] |}.
Proof. reflexivity. Qed.

(** What lines 48 to 134 put in the left column. *)
Lemma column1_render (inp : inputs) (g : Random.generator) :
  column st.Col1 (render inp g)
  = map snd col1_head
    ++ match opened (uploaded_file inp) with
       | Some image => map snd (col1_body (eval (analyze_image image) g))
       | None => []
       end.
Proof.
  with_strategy opaque [analyze_image analyze_headline] (
    rewrite column_rendered, render_rendered;
    destruct (uploaded_file inp) as [[nm [image|]]|],
             (truthy (url_input inp));
    reflexivity).
Qed.

(** What they put in the right column. *)
Lemma column2_render (inp : inputs) (g : Random.generator) :
  column st.Col2 (render inp g)
  = if decodes (uploaded_file inp)
    then map snd col2_head
         ++ if truthy (url_input inp)
            then map snd (col2_body (analyze_headline (url_input inp)))
            else []
    else [].
Proof.
  with_strategy opaque [analyze_image analyze_headline] (
    rewrite column_rendered, render_rendered;
    destruct (uploaded_file inp) as [[nm [image|]]|],
             (truthy (url_input inp));
    reflexivity).
Qed.

Lemma banners1_render (inp : inputs) (g : Random.generator) :
  banners st.Col1 (render inp g)
  = match opened (uploaded_file inp) with
    | Some image =>
        [result_banner (fst (eval (analyze_image image) g))
                       (snd (eval (analyze_image image) g))]
    | None => []
    end.
Proof.
  unfold banners. rewrite column1_render, filter_app.
  destruct (opened (uploaded_file inp)) as [image|]; [|reflexivity].
  cbn [col1_head col1_body map snd filter st.is_banner st.is_error
       st.is_warning st.is_success orb app].
  now rewrite result_banner_is_banner.
Qed.

Lemma banners2_render (inp : inputs) (g : Random.generator) :
  banners st.Col2 (render inp g)
  = if decodes (uploaded_file inp) && truthy (url_input inp)
    then [medium_banner]
    else [].
Proof.
  unfold banners. rewrite column2_render.
  destruct (decodes (uploaded_file inp)); [|reflexivity].
  rewrite filter_app. destruct (truthy (url_input inp)); reflexivity.
Qed.

(** X3.  Executing lines 48 to 134 with an upload that decodes, the image
    column shows exactly one banner and it follows the verdict: an image
    whose mean exceeds 128 gets the red banner with "Likely AI-Generated" and
    0.2; any other image gets the green banner with "Likely Authentic" and
    0.9 when the draw exceeds 0.5 and the yellow banner with
    "Analysis Inconclusive" and 0.6 when it does not. *)
Theorem image_banner_follows_verdict
        (f : UploadedFile) (image : PIL.Image) (url : string)
        (g : Random.generator) :
  opens_as f = Some image ->
  banners st.Col1 (render {| uploaded_file := Some f; url_input := url |} g)
  = [ if F64.gt (np.mean (np.array image)) 128
      then st.error (st.Result "Likely AI-Generated" 0.2)
      else if F64.gt (Random.outputs g (Random.position g)) 0.5
           then st.success (st.Result "Likely Authentic" 0.9)
           else st.warning (st.Result "Analysis Inconclusive" 0.6) ].
Proof.
  intros Hf. rewrite banners1_render. cbn [uploaded_file opened].
  rewrite Hf. unfold eval at 1 2. rewrite analyze_image_unfold.
  destruct (F64.gt (np.mean (np.array image)) 128); [reflexivity|].
  change (eval Random.random g) with (Random.outputs g (Random.position g)).
  destruct (F64.gt (Random.outputs g (Random.position g)) 0.5); reflexivity.
Qed.

Lemma image_banner_follows_verdict_witness :
  opens_as (photo white_strip) = Some white_strip
  /\ banners st.Col1
       (render {| uploaded_file := Some (photo white_strip);
                  url_input := "" |} coin)
     = [st.error (st.Result "Likely AI-Generated" 0.2)].
Proof.
  assert (H : opens_as (photo white_strip) = Some white_strip)
    by reflexivity.
  split; [exact H|].
  exact (image_banner_follows_verdict (photo white_strip) white_strip "" coin H).
Defined.

(** X4.  Lines 48 to 134 render at most one banner in each column and none
    outside the columns: one in the left column iff a file was uploaded and
    decodes, one in the right column iff the URL field is not empty and the
    upload, if there is one, decodes. *)
Theorem one_banner_per_input (inp : inputs) (g : Random.generator) :
  List.length (banners st.Col1 (render inp g))
    = match opened (uploaded_file inp) with Some _ => 1 | None => 0 end%nat
  /\ List.length (banners st.Col2 (render inp g))
    = (if decodes (uploaded_file inp) && truthy (url_input inp)
       then 1 else 0)%nat
  /\ banners st.Page (render inp g) = [].
Proof.
  rewrite banners1_render, banners2_render. split; [|split].
  - destruct (opened (uploaded_file inp)); reflexivity.
  - destruct (decodes (uploaded_file inp) && truthy (url_input inp));
      reflexivity.
  - with_strategy opaque [analyze_image analyze_headline] (
      unfold banners; rewrite column_rendered, render_rendered;
      destruct (uploaded_file inp) as [[nm [image|]]|],
               (truthy (url_input inp));
      reflexivity).
Qed.



(** X6.  Lines 48 to 134 make at most one draw: exactly one when a file was
    uploaded that decodes to an image whose mean does not exceed 128, and
    none otherwise; the URL analysis never draws.  The generator's outputs
    are left as they were. *)
Theorem page_draws (inp : inputs) (g : Random.generator) :
  Random.position (rng (render inp g))
    = (Random.position g
       + match opened (uploaded_file inp) with
         | Some image =>
             if F64.gt (np.mean (np.array image)) 128 then 0 else 1
         | None => 0
         end)%nat
  /\ Random.outputs (rng (render inp g)) = Random.outputs g.
Proof.
  rewrite render_rng. destruct (opened (uploaded_file inp)) as [image|].
  - unfold exec. rewrite analyze_image_unfold.
    destruct (F64.gt (np.mean (np.array image)) 128);
      [|destruct (F64.gt (eval Random.random g) 0.5)];
      cbn [snd exec Random.random Random.position Random.outputs];
      split; (reflexivity || lia).
  - split; [lia | reflexivity].
Qed.

(** X7.  The image result is not reproducible: when the uploaded image has a
    mean that does not exceed 128 and the generator's next two outputs lie
    on either side of 0.5, executing lines 48 to 134 again on the same
    inputs (the generator having moved on) turns the green
    "Likely Authentic" banner into the yellow "Analysis Inconclusive" one. *)
Theorem rerun_changes_banner
        (f : UploadedFile) (image : PIL.Image) (url : string)
        (g : Random.generator) :
  opens_as f = Some image ->
  F64.gt (np.mean (np.array image)) 128 = false ->
  F64.gt (Random.outputs g (Random.position g)) 0.5 = true ->
  F64.gt (Random.outputs g (S (Random.position g))) 0.5 = false ->
  banners st.Col1 (render {| uploaded_file := Some f; url_input := url |} g)
    = [st.success (st.Result "Likely Authentic" 0.9)]
  /\ banners st.Col1
       (render {| uploaded_file := Some f; url_input := url |}
               (rng (render {| uploaded_file := Some f; url_input := url |}
                            g)))
     = [st.warning (st.Result "Analysis Inconclusive" 0.6)].
Proof.
  intros Hf Hmean H1 H2.
  rewrite !banners1_render, render_rng. cbn [uploaded_file opened].
  rewrite Hf. unfold eval at 1 2 3 4, exec.
  rewrite !analyze_image_unfold, Hmean.
  change (eval Random.random g) with (Random.outputs g (Random.position g)).
  rewrite H1. cbn [snd exec eval fst Random.random Random.outputs
                   Random.position].
  rewrite H2. split; reflexivity.
Qed.

Lemma rerun_changes_banner_witness :
  F64.gt (np.mean (np.array dark_strip)) 128 = false
  /\ banners st.Col1
       (render {| uploaded_file := Some (photo dark_strip); url_input := "" |}
               (rng (render {| uploaded_file := Some (photo dark_strip);
                               url_input := "" |} coin)))
     = [st.warning (st.Result "Analysis Inconclusive" 0.6)].
Proof.
  split; [reflexivity|].
  apply (rerun_changes_banner (photo dark_strip) dark_strip "" coin);
    reflexivity.
Defined.

(** X8.  Lines 48 to 134 do not look at what the URL says: with the same
    upload and the same generator, any two non-empty URLs give the same
    elements, the same calls, the same generator state and the same end. *)
Theorem page_same_for_every_url
        (up : option UploadedFile) (url1 url2 : string)
        (g : Random.generator) :
  url1 <> ""%string -> url2 <> ""%string ->
  page {| uploaded_file := up; url_input := url1 |} (fresh g)
  = page {| uploaded_file := up; url_input := url2 |} (fresh g).
Proof.
  intros H1 H2. rewrite !page_spec. cbn [uploaded_file url_input].
  destruct url1 as [|c1 u1]; [congruence|].
  destruct url2 as [|c2 u2]; [congruence|].
  reflexivity.
Qed.

Lemma page_same_for_every_url_witness :
  page {| uploaded_file := Some (photo white_strip);
          url_input := "https://example.org/news" |} (fresh coin)
  = page {| uploaded_file := Some (photo white_strip); url_input := " " |}
         (fresh coin).
Proof.
  apply (page_same_for_every_url (Some (photo white_strip))
           "https://example.org/news" " " coin); discriminate.
Defined.

(** ** The colour of a banner as a function of the score *)

(** X9.  The two banner blocks implement the same colour rule: for every
    float (NaN included) and every label, the banner of the image column and
    the banner of the combined score have the same colour, and each block
    always yields one of the three banners. *)
Theorem banner_blocks_agree (result : string) (s : float) :
  colour_of (result_banner result s) = colour_of (overall_banner s)
  /\ colour_of (result_banner result s) <> None
  /\ st.score_of (result_banner result s) = st.score_of (overall_banner s).
Proof.
  unfold result_banner, overall_banner.
  destruct (s <? 0.5)%float, (s <? 0.7)%float; cbn;
    repeat split; discriminate.
Qed.

Lemma SFleb_SFltb_trans (x y z : spec_float) :
  SFleb x y = true -> SFltb y z = true -> SFltb x z = true.
Proof.
  unfold SFltb, SFleb.
  destruct x as [[]|[]| |[] m1 e1], y as [[]|[]| |[] m2 e2],
           z as [[]|[]| |[] m3 e3];
    simpl; try discriminate; try reflexivity;
    change (Pos.compare_cont Eq) with Pos.compare;
    intros H1 H2; F64Order.cmp_cases;
    try discriminate; try reflexivity; try lia.
Qed.

Lemma leb_ltb_trans (x y z : float) :
  (x <=? y)%float = true -> (y <? z)%float = true -> (x <? z)%float = true.
Proof.
  rewrite !FloatAxioms.ltb_spec, FloatAxioms.leb_spec.
  apply SFleb_SFltb_trans.
Qed.

(** X10.  A higher score never gets a worse banner: when [s1 <= s2], the
    banner shown for [s1] is not above the banner shown for [s2] in the
    order red, yellow, green; in the image block and in the combined block,
    whatever the labels. *)
Theorem banner_colour_monotone (r1 r2 : string) (s1 s2 : float) :
  (s1 <=? s2)%float = true ->
  (banner_rank (result_banner r1 s1) <= banner_rank (result_banner r2 s2))%nat
  /\ (banner_rank (overall_banner s1) <= banner_rank (overall_banner s2))%nat.
Proof.
  intros Hle.
  pose proof (leb_ltb_trans s1 s2 0.5 Hle) as A5.
  pose proof (leb_ltb_trans s1 s2 0.7 Hle) as A7.
  unfold banner_rank, result_banner, overall_banner. revert A5 A7.
  destruct (s1 <? 0.5)%float, (s1 <? 0.7)%float,
           (s2 <? 0.5)%float, (s2 <? 0.7)%float;
    cbn; intros A5 A7; try (split; lia);
    (specialize (A5 eq_refl) || specialize (A7 eq_refl)); discriminate.
Qed.

Lemma banner_colour_monotone_witness :
  (0.2 <=? 0.6)%float = true
  /\ (banner_rank (result_banner "Likely AI-Generated" 0.2)
      <= banner_rank (result_banner "Analysis Inconclusive" 0.6))%nat.
Proof.
  assert (H : (0.2 <=? 0.6)%float = true) by reflexivity.
  split; [exact H|].
  apply (banner_colour_monotone
           "Likely AI-Generated" "Analysis Inconclusive" 0.2 0.6 H).
Defined.

(** ** The keyword test *)

Lemma prefix_spec (w s : string) :
  String.prefix w s = true <-> exists post : string, s = (w ++ post)%string.
Proof.
  revert s. induction w as [|a w IH]; intros s.
  - cbn. split; [intros _; now exists s | destruct s; reflexivity].
  - destruct s as [|b s]; cbn.
    + split; [discriminate | intros [post H]; discriminate H].
    + destruct (ascii_dec a b) as [->|Hab].
      * rewrite IH. split; intros [post H]; exists post.
        -- now rewrite H.
        -- now injection H.
      * split; [discriminate|]. intros [post H]. injection H as H _.
        now destruct Hab.
Qed.

(** [str_in] is Python's substring test. *)
Lemma str_in_spec (w s : string) :
  str_in w s = true
  <-> exists pre post : string, s = (pre ++ w ++ post)%string.
Proof.
  induction s as [|c s IH]; cbn [str_in].
  - rewrite prefix_spec. split.
    + intros [post H]. now exists ""%string, post.
    + intros [[|c pre] [post H]]; [now exists post | discriminate H].
  - rewrite orb_true_iff, prefix_spec, IH. split.
    + intros [[post H]|[pre [post H]]].
      * now exists ""%string, post.
      * exists (String c pre), post. cbn. now rewrite H.
    + intros [[|c' pre] [post H]].
      * left. now exists post.
      * right. injection H as _ H. now exists pre, post.
Qed.

Lemma lower_length (s : string) : String.length (lower s) = String.length s.
Proof. induction s as [|c s IH]; cbn; [reflexivity | now rewrite IH]. Qed.

Lemma lower_ascii_capital (a b : ascii) :
  (65 <= nat_of_ascii a <= 90)%nat ->
  nat_of_ascii b = (nat_of_ascii a + 32)%nat ->
  lower_ascii a = b /\ lower_ascii b = b.
Proof.
  intros Ha Hb. unfold lower_ascii. cbv zeta.
  assert (E1 : ((65 <=? nat_of_ascii a) && (nat_of_ascii a <=? 90))%nat = true)
    by (apply andb_true_intro; split; apply Nat.leb_le; lia).
  assert (E2 : ((65 <=? nat_of_ascii b) && (nat_of_ascii b <=? 90))%nat = false)
    by (apply andb_false_intro2; apply Nat.leb_gt; lia).
  rewrite E1, E2, <- Hb, ascii_nat_embedding. split; reflexivity.
Qed.

Lemma lower_ascii_same_letter (a b : ascii) :
  same_letter a b -> lower_ascii a = lower_ascii b.
Proof.
  intros [->|[[Ha Hb]|[Hb Ha]]]; [reflexivity| |].
  - destruct (lower_ascii_capital a b Ha Hb) as [-> ->]. reflexivity.
  - destruct (lower_ascii_capital b a Hb Ha) as [-> ->]. reflexivity.
Qed.

Lemma lower_caseless (s t : string) : caseless s t -> lower s = lower t.
Proof.
  induction 1 as [|a b s t Hab _ IH]; [reflexivity|].
  cbn [lower]. now rewrite (lower_ascii_same_letter a b Hab), IH.
Qed.

(** [keyword_test] is the test [analyze_headline] makes on its title. *)
Remark analyze_headline_keyword_test (url : string) :
  analyze_headline url =
    if keyword_test placeholder_title
    then ("High Sensationalism Detected"%string, 0.3%float)
    else ("Low Sensationalism"%string, 0.8%float).
Proof. reflexivity. Qed.

(** X11.  The keyword test of line 40 on ASCII titles: it holds exactly when
    the lowercased title contains one of the five clickbait words as a
    contiguous substring, lowercasing keeps the length of the title, and the
    test does not see letter case: two titles that differ in the case of
    their letters only get the same answer. *)
Theorem keyword_test_spec (title other : string) :
  ascii_text title = true -> ascii_text other = true ->
  caseless title other ->
  (keyword_test title = true
   <-> exists word pre post : string,
         In word clickbait_words
         /\ lower title = (pre ++ word ++ post)%string)
  /\ String.length (lower title) = String.length title
  /\ keyword_test title = keyword_test other.
Proof.
  intros _ _ Hcase. split; [|split].
  - unfold keyword_test, any. rewrite existsb_exists. split.
    + intros [word [Hin H]]. apply str_in_spec in H as [pre [post H]].
      now exists word, pre, post.
    + intros [word [pre [post [Hin H]]]]. exists word. split; [exact Hin|].
      apply str_in_spec. now exists pre, post.
  - apply lower_length.
  - unfold keyword_test. now rewrite (lower_caseless _ _ Hcase).
Qed.

Lemma keyword_test_spec_witness :
  caseless "SHOCKING News" "shocking news"
  /\ keyword_test "SHOCKING News" = keyword_test "shocking news".
Proof.
  assert (C : caseless "SHOCKING News" "shocking news").
  { repeat (apply caseless_cons;
            [first [ left; reflexivity
                   | right; left; split; [cbn; lia | reflexivity] ]|]).
    apply caseless_nil. }
  split; [exact C|].
  exact (proj2 (proj2 (keyword_test_spec "SHOCKING News" "shocking news"
                         eq_refl eq_refl C))).
Defined.

(** ** The combined analysis and the uploaded image *)

(** X12.  The combined analysis of lines 118 to 134 never uses the uploaded
    image: even when the left column has just labelled the upload
    "Likely AI-Generated" (red banner, 0.2), the right column, for any
    non-empty URL, shows the MEDIUM banner with 0.6, computed from the
    placeholder image score 0.9. *)
Theorem combined_analysis_ignores_upload
        (f : UploadedFile) (image : PIL.Image) (url : string)
        (g : Random.generator) :
  opens_as f = Some image ->
  F64.gt (np.mean (np.array image)) 128 = true ->
  url <> ""%string ->
  banners st.Col1 (render {| uploaded_file := Some f; url_input := url |} g)
    = [st.error (st.Result "Likely AI-Generated" 0.2)]
  /\ banners st.Col2 (render {| uploaded_file := Some f; url_input := url |} g)
    = [st.warning (st.Overall st.MEDIUM (final_score 0.9 0.3))]
  /\ final_score 0.9 0.3 = 0.6%float.
Proof.
  intros Hf Hmean Hurl. pose proof (truthy_nonempty _ Hurl) as Ht.
  rewrite banners1_render, banners2_render.
  cbn [uploaded_file url_input opened decodes]. rewrite Hf, Ht.
  unfold eval. rewrite analyze_image_unfold, Hmean.
  repeat split.
Qed.

Lemma combined_analysis_ignores_upload_witness :
  F64.gt (np.mean (np.array white_strip)) 128 = true
  /\ banners st.Col1
       (render {| uploaded_file := Some (photo white_strip);
                  url_input := "x" |} coin)
     = [st.error (st.Result "Likely AI-Generated" 0.2)].
Proof.
  assert (F : opens_as (photo white_strip) = Some white_strip)
    by reflexivity.
  assert (H : F64.gt (np.mean (np.array white_strip)) 128 = true)
    by reflexivity.
  assert (U : "x"%string <> ""%string) by discriminate.
  split; [exact H|].
  exact (proj1 (combined_analysis_ignores_upload
                  (photo white_strip) white_strip "x" coin F H U)).
Defined.

(** ** The calls of lines 48 to 134 *)

(** X13.  Lines 48 to 134 call each scoring routine at most once, and
    [analyze_image], when it is called, before [analyze_headline]:
    [analyze_image] is called iff a file was uploaded and decodes,
    [analyze_headline] iff the URL is not empty and the upload, if there is
    one, decodes. *)
Theorem routines_called_once_in_order (inp : inputs) (g : Random.generator) :
  NoDup (calls (render inp g))
  /\ exists (i h : bool),
       calls (render inp g)
       = (if i then [AnalyzeImage] else []) ++
         (if h then [AnalyzeHeadline] else [])
       /\ (i = true <-> opened (uploaded_file inp) <> None)
       /\ (h = true <->
           url_input inp <> ""%string /\ decodes (uploaded_file inp) = true).
Proof.
  rewrite render_calls. pose proof (truthy_empty (url_input inp)) as E.
  split.
  - destruct (uploaded_file inp) as [[nm [image|]]|],
             (truthy (url_input inp));
      cbn [decodes opened opens_as app];
      repeat constructor; cbn [In]; intuition discriminate.
  - exists (match opened (uploaded_file inp) with
            | Some _ => true
            | None => false
            end),
           (decodes (uploaded_file inp) && truthy (url_input inp)).
    destruct (uploaded_file inp) as [[nm [image|]]|],
             (truthy (url_input inp));
      cbn [decodes opened opens_as andb app];
      (split; [reflexivity|]); split; split;
      try discriminate; try reflexivity; try tauto;
      try (intros _; split; [intros H; apply E in H; discriminate
                            | reflexivity]);
      try (intros [H _]; exfalso; apply H, E; reflexivity);
      try (intros [_ H]; discriminate H);
      try (intros H; exfalso; apply H; reflexivity).
Qed.

(** ** The file as given *)

(** X14.  As the file is given it does not compile: the string literal
    opened on line 136 meets a line end before its closing quote, so every
    run ends in [SyntaxError] with nothing rendered, no routine called and
    no draw made, whatever the inputs. *)
Theorem app_py_does_not_compile (inp : inputs) (g : Random.generator) :
  literal_closes false 0 after_opening_quote = false
  /\ app_py inp (fresh g) = (Raised (SyntaxError 136), fresh g)
  /\ rendered (run inp g) = []
  /\ calls (run inp g) = []
  /\ rng (run inp g) = g.
Proof.
  split; [exact line_136_unterminated|].
  rewrite run_spec, app_py_spec. repeat split.
Qed.

(** X15.  An uploaded file that [Image.open] cannot decode ends lines 48 to
    134 on line 90: the script raises, the page keeps the title, the left
    column's heading and the uploader and nothing more (no image, no banner,
    nothing of the right column, whatever the URL), no routine is called and
    the generator is untouched. *)
Theorem undecodable_upload_aborts (inp : inputs) (g : Random.generator) :
  decodes (uploaded_file inp) = false ->
  outcome inp g = Raised UnidentifiedImageError
  /\ rendered (render inp g) = (page_head ++ col1_head)%list
  /\ column st.Col2 (render inp g) = []
  /\ calls (render inp g) = []
  /\ rng (render inp g) = g.
Proof.
  intros Hd.
  rewrite outcome_spec, render_rendered, column2_render, render_calls,
    render_rng, Hd.
  repeat split.
  destruct (uploaded_file inp) as [[nm [image|]]|];
    [discriminate Hd | reflexivity | reflexivity].
Qed.

Lemma undecodable_upload_aborts_witness :
  decodes (uploaded_file broken_upload_with_news) = false
  /\ outcome broken_upload_with_news coin = Raised UnidentifiedImageError.
Proof.
  assert (H : decodes (uploaded_file broken_upload_with_news) = false)
    by reflexivity.
  split; [exact H|].
  exact (proj1 (undecodable_upload_aborts broken_upload_with_news coin H)).
Defined.

(** X16.  Every score printed by an element that lines 48 to 134 render
    lies in [0, 1]. *)
Theorem rendered_scores_in_unit
        (inp : inputs) (g : Random.generator)
        (c : st.container) (e : st.element) (s : float) :
  In (c, e) (rendered (render inp g)) ->
  st.score_of e = Some s ->
  F64.in_unit s = true.
Proof.
  intros Hin Hs. apply in_render in Hin.
  destruct Hin as [H|[H|[[image [_ H]]|[[_ H]|[_ [_ H]]]]]];
    cbn [In page_head col1_head col1_body col2_head col2_body] in H;
    each_element; try discriminate Hs.
  - rewrite result_banner_score in Hs. injection Hs as <-.
    apply analyze_image_score_in_unit.
  - rewrite overall_banner_score in Hs. injection Hs as <-. reflexivity.
Qed.

Lemma rendered_scores_in_unit_witness :
  In (st.Col2, medium_banner) (rendered (render news_only coin))
  /\ F64.in_unit 0.6 = true.
Proof.
  assert (H : In (st.Col2, medium_banner) (rendered (render news_only coin))).
  { vm_compute. do 15 right. left. reflexivity. }
  split; [exact H|].
  exact (rendered_scores_in_unit news_only coin st.Col2 medium_banner 0.6
           H eq_refl).
Defined.
